(** * simple-agent/main.py: the REPL driver of the MCP + LangChain test agent

    A shallow embedding of [main] (src/simple-agent/main.py) and the
    properties of its conversation history, its exit tokens, its input cap
    and its terminal surface.

    The LLM endpoint, the MCP server subprocess and the LangGraph agent are
    external collaborators of the script; they are taken as an interface
    ([Collaborators]) whose operations act on an opaque [World].

    The file has two parts: the definitions (the embedding), then the
    lemmas and theorems about them. *)

From Stdlib Require Import String Ascii.
From stdpp Require Import base list strings gmap.

Local Open Scope stdpp_scope.

(** * Part I: definitions *)

(** ** Python values used by the script *)

Module Py.

(** The line feed that [print] writes after its arguments and that the
    literals of the prompt and of the answer line start with. *)
Definition LF : string := String "010"%char EmptyString.

(** [len(s)]. *)
Definition len (s : string) : nat := String.length s.

(** [s[:n]] for a non-negative bound [n]: the first [n] characters of [s],
    all of [s] when it is shorter. *)
Definition slice_to (n : nat) (s : string) : string := String.substring 0 n s.

(** [s * n] on strings. *)
Fixpoint str_mul (s : string) (n : nat) : string :=
  match n with
  | O => EmptyString
  | S n' => s +:+ str_mul s n'
  end.

(** [sep.join(parts)]. *)
Fixpoint join (sep : string) (parts : list string) : string :=
  match parts with
  | [] => EmptyString
  | [p] => p
  | p :: rest => p +:+ sep +:+ join sep rest
  end.

(** What [print] writes to standard output for its positional arguments:
    the arguments separated by one space, then a line feed. *)
Definition print_text (args : list string) : string := join " " args +:+ LF.

(** [p] is a prefix of [s]; a strict prefix is one that differs from [s]. *)
Definition str_prefix (p s : string) : Prop := exists k, s = p +:+ k.
Definition str_strict_prefix (p s : string) : Prop := str_prefix p s /\ p <> s.

(** The text of the last (current) terminal line of [s]: what follows the
    last line feed. *)
Fixpoint last_line_acc (acc s : string) : string :=
  match s with
  | EmptyString => acc
  | String c s' =>
      if Ascii.eqb c "010"%char then last_line_acc EmptyString s'
      else last_line_acc (acc +:+ String c EmptyString) s'
  end.
Definition last_line (s : string) : string := last_line_acc EmptyString s.

End Py.

(** ** Data model *)

(** The role of a message.  The script writes the roles ["system"] and
    ["user"] itself; assistant and tool messages only occur in what the
    agent returns. *)
Inductive Role := system | user | assistant | tool.

(** A message: the dict [{"role": ..., "content": ...}] of the script, and
    the message objects of an agent response (read through [.content]). *)
Record Message := { role : Role; content : string }.

(** A tool as [load_mcp_tools] returns it; the script reads [tool.name]. *)
Record Tool := { name : string; description : string; args_schema : string }.

(** [ChatOpenAI(model=..., temperature=..., openai_api_key=...)]. *)
Record ChatOpenAI :=
  { model_name : string; temperature : Z; openai_api_key : option string }.

(** [StdioServerParameters(command=..., args=..., env=...)]. *)
Record StdioServerParameters :=
  { command : string; args : list string; env : list (string * option string) }.

(** The compiled graph that [create_react_agent(model, tools)] returns: it
    holds the model and the tools it was built from. *)
Record Agent := { agent_model : ChatOpenAI; agent_tools : list Tool }.

Definition create_react_agent (model : ChatOpenAI) (tools : list Tool) : Agent :=
  {| agent_model := model; agent_tools := tools |}.

(** A raised [Exception]: its class and [str(err)]. *)
Record PyExn := { exn_class : string; exn_str : string }.

Definition EOFError : PyExn :=
  {| exn_class := "EOFError"; exn_str := "EOF when reading a line" |}.
Definition IndexError : PyExn :=
  {| exn_class := "IndexError"; exn_str := "list index out of range" |}.

Inductive Result (A : Type) :=
  | Ok (a : A)
  | Raise (e : PyExn).
Arguments Ok {A} a.
Arguments Raise {A} e.

Definition raised {A} (r : Result A) : Prop :=
  match r with Raise _ => True | Ok _ => False end.

(** The two [async with] scopes of [main]. *)
Inductive Scope :=
  | Transport (params : StdioServerParameters)
  | Session.

(** What a run does, in order, as seen from outside the script: the calls
    to the collaborators with what they returned, and the terminal traffic. *)
Inductive Event :=
  | EvEnter (s : Scope) (r : Result unit)
  | EvExit (s : Scope)
  | EvInitialize (r : Result unit)
  | EvLoadTools (r : Result (list Tool))
  | EvPrint (text : string)
  | EvInput (prompt line : string)
  | EvEof (prompt : string)
  | EvInvoke (agent : Agent) (history : list Message) (r : Result (list Message)).

(** ** External collaborators *)

(** The process environment, the MCP server subprocess and its session, and
    the agent with its LLM endpoint.  Each operation may raise.
    [agent_ainvoke agent msgs] is [await agent.ainvoke({"messages": msgs})]
    read at ["messages"]: LangGraph merges the input into the state of the
    graph with a reducer that builds a list of its own, so the call reads
    the list it is given and the list object of the caller is not written
    to; the messages of the run come back in the response.
    [scope_exit s r] is leaving the scope [s] with the outcome [r] of its
    body, the exception in flight if there is one: it gives the outcome
    that leaves the [async with] statement, so that the exit of a scope can
    pass the exception on, replace it (the task groups of the real scopes
    re-raise it inside an [ExceptionGroup]), swallow it, or raise itself. *)
Class Collaborators := {
  World : Type;
  getenv : string -> option string;
  scope_enter : Scope -> World -> Result unit * World;
  scope_exit : Scope -> Result unit -> World -> Result unit * World;
  session_initialize : World -> Result unit * World;
  load_mcp_tools : World -> Result (list Tool) * World;
  agent_ainvoke : Agent -> list Message -> World -> Result (list Message) * World
}.

(** ** Module-level constants of the script *)

#[warnings="-abstract-large-number"] Definition INPUT_CAP : nat := 175000.
Definition EXIT_TOKENS : gset string := {[ "quit"; "q" ]}.
Definition PROMPT : string := Py.LF +:+ "You: ".

Definition SYSTEM_PROMPT : Message :=
  {| role := system;
     content :=
       "You are a helpful assistant that can scrape websites, " +:+
       "crawl pages, and extract data using Firecrawl tools. " +:+
       "Think step by step and use the appropriate tools." |}.

(** ** The script *)

Section Script.
Context `{C : Collaborators}.

Definition model : ChatOpenAI :=
  {| model_name := "gpt-5-nano"; temperature := 0;
     openai_api_key := getenv "OPENAI_API_KEY" |}.

Definition server_params : StdioServerParameters :=
  {| command := "npx"; args := ["firecrawl-mcp"];
     env := [("FIRECRAWL_API_KEY", getenv "FIRECRAWL_API_KEY")] |}.

(** *** Program state and the monad of the script *)

(** The state a run threads: the outside world, the list object bound to
    [messages] in [main], and the events so far. *)
Record State := { world : World; messages : list Message; trace : list Event }.

Definition M (A : Type) : Type := State -> Result A * State.

Definition ret {A} (a : A) : M A := fun st => (Ok a, st).
Definition raise {A} (e : PyExn) : M A := fun st => (Raise e, st).
Definition bind {A B} (m : M A) (k : A -> M B) : M B :=
  fun st => match m st with
            | (Ok a, st') => k a st'
            | (Raise e, st') => (Raise e, st')
            end.

Notation "'let!' x := m 'in' k" := (bind m (fun x => k))
  (at level 10, x name, m at level 100, k at level 200, only parsing).
Notation "'do!' m 'in' k" := (bind m (fun _ => k))
  (at level 10, m at level 100, k at level 200, only parsing).

(** [try: body except Exception as err: handler(err)]; what [body] did to
    the state before it raised stays done. *)
Definition try_except {A} (body : M A) (handler : PyExn -> M A) : M A :=
  fun st => match body st with
            | (Ok a, st') => (Ok a, st')
            | (Raise e, st') => handler e st'
            end.

Definition emit (ev : Event) : M unit :=
  fun st => (Ok tt, {| world := world st; messages := messages st;
                       trace := trace st ++ [ev] |}).

(** An operation of a collaborator, run on the world and logged with its
    result. *)
Definition external {A} (op : World -> Result A * World)
    (log : Result A -> Event) : M A :=
  fun st => let (r, w) := op (world st) in
            (r, {| world := w; messages := messages st;
                   trace := trace st ++ [log r] |}).

(** *** The statements of [main] *)

(** [print(...)]. *)
Definition print (args : list string) : M unit := emit (EvPrint (Py.print_text args)).

(** [input(prompt)]: writes the prompt and reads one line.  [next] is the
    line standard input delivers, [None] at its end, where [input] raises
    [EOFError]. *)
Definition input (prompt : string) (next : option string) : M string :=
  match next with
  | Some line => do! emit (EvInput prompt line) in ret line
  | None => do! emit (EvEof prompt) in raise EOFError
  end.

(** [messages = [...]]. *)
Definition messages_assign (l : list Message) : M unit :=
  fun st => (Ok tt, {| world := world st; messages := l; trace := trace st |}).

(** [messages.append(m)]. *)
Definition messages_append (m : Message) : M unit :=
  fun st => (Ok tt, {| world := world st; messages := messages st ++ [m];
                       trace := trace st |}).

(** [await agent.ainvoke({"messages": messages})], read at ["messages"]. *)
Definition ainvoke (agent : Agent) : M (list Message) :=
  fun st => external (agent_ainvoke agent (messages st))
                     (EvInvoke agent (messages st)) st.

(** [response_messages[-1].content]. *)
Definition last_content (response_messages : list Message) : M string :=
  match last response_messages with
  | Some m => ret (content m)
  | None => raise IndexError
  end.

(** [async with enter as x: body(x)]: the scope is left on every path out
    of the body; its exit is handed the outcome of the body, and what the
    exit makes of it is the outcome of the statement. *)
Definition async_with (s : Scope) (body : M unit) : M unit :=
  do! external (scope_enter s) (EvEnter s) in
  fun st => let (r, st') := body st in
            let (r', w') := scope_exit s r (world st') in
            (r', {| world := w'; messages := messages st';
                    trace := trace st' ++ [EvExit s] |}).

(** How one pass through the body of [while True] ends. *)
Inductive Ctl := Continue | Return.

(** The body of the [while True] loop of [main] (lines 110 to 133). *)
Definition loop_body (agent : Agent) (next : option string) : M Ctl :=
  let! user_input := input PROMPT next in
  if bool_decide (user_input ∈ EXIT_TOKENS) then
    do! print ["Goodbye!"] in
    ret Return
  else
    do! messages_append {| role := user; content := Py.slice_to INPUT_CAP user_input |} in
    do! try_except
          (let! response_messages := ainvoke agent in
           let! ai_message := last_content response_messages in
           print [Py.LF +:+ "Agent:"; ai_message])
          (fun err => print ["Error:"; exn_str err]) in
    ret Continue.

(** [while True: ...], unfolded along the lines that standard input
    delivers; when they run out, [input] raises. *)
Fixpoint repl (agent : Agent) (lines : list string) : M unit :=
  match lines with
  | [] => do! loop_body agent None in ret tt
  | line :: rest =>
      let! ctl := loop_body agent (Some line) in
      match ctl with
      | Return => ret tt
      | Continue => repl agent rest
      end
  end.

(** [main()]. *)
Definition main (lines : list string) : M unit :=
  async_with (Transport server_params)
    (async_with Session
       (do! external session_initialize EvInitialize in
        let! tools := external load_mcp_tools EvLoadTools in
        let agent := create_react_agent model tools in
        do! messages_assign [SYSTEM_PROMPT] in
        do! print ("Available Tools in MCP:" :: map name tools) in
        do! print [Py.str_mul "-" 60] in
        repl agent lines)).

(** The state [asyncio.run(main())] starts from. *)
Definition initial (w : World) : State := {| world := w; messages := []; trace := [] |}.

Definition run (lines : list string) (w : World) : Result unit * State :=
  main lines (initial w).

(** *** Vocabulary for the statements about the script *)

(** The user message that a turn stores for the line it read. *)
Definition user_message (user_input : string) : Message :=
  {| role := user; content := Py.slice_to INPUT_CAP user_input |}.

Definition is_user (m : Message) : Prop := role m = user.

(** What the [try] statement of a turn prints for the outcome of the agent
    call. *)
Definition turn_output (r : Result (list Message)) : string :=
  match r with
  | Ok response_messages =>
      match last response_messages with
      | Some m => Py.print_text [Py.LF +:+ "Agent:"; content m]
      | None => Py.print_text ["Error:"; exn_str IndexError]
      end
  | Raise err => Py.print_text ["Error:"; exn_str err]
  end.

(** The state after a turn on [user_input] that is not an exit token. *)
Definition after_turn (agent : Agent) (user_input : string) (st : State) : State :=
  let history := messages st ++ [user_message user_input] in
  let (r, w) := agent_ainvoke agent history (world st) in
  {| world := w; messages := history;
     trace := trace st ++ [EvInput PROMPT user_input;
                           EvInvoke agent history r;
                           EvPrint (turn_output r)] |}.

(** The state after the pass that reads an exit token. *)
Definition after_exit (user_input : string) (st : State) : State :=
  {| world := world st; messages := messages st;
     trace := trace st ++ [EvInput PROMPT user_input;
                           EvPrint (Py.print_text ["Goodbye!"])] |}.

(** The state after the pass that finds standard input at its end. *)
Definition after_eof (st : State) : State :=
  {| world := world st; messages := messages st;
     trace := trace st ++ [EvEof PROMPT] |}.

(** An event of the prompt: a line read, or the end of input met. *)
Definition prompt_event (ev : Event) : Prop :=
  ev = EvEof PROMPT \/ exists line, ev = EvInput PROMPT line.

(** The events the loop run with [agent] adds, when it starts from the
    history [h0]: prompts, prints, and calls of [agent] on [h0] extended by
    user messages. *)
Definition loop_event (agent : Agent) (h0 : list Message) (ev : Event) : Prop :=
  match ev with
  | EvInput p _ | EvEof p => p = PROMPT
  | EvPrint _ => True
  | EvInvoke a h _ => a = agent /\ exists us, h = h0 ++ us /\ Forall is_user us
  | _ => False
  end.

(** The banner and the rule under it. *)
Definition banner (tools : list Tool) : string :=
  Py.print_text ("Available Tools in MCP:" :: map name tools).
Definition rule : string := Py.print_text [Py.str_mul "-" 60].

(** The events of a startup that went through and found [tools]. *)
Definition startup_events (tools : list Tool) : list Event :=
  [EvEnter (Transport server_params) (Ok tt); EvEnter Session (Ok tt);
   EvInitialize (Ok tt); EvLoadTools (Ok tools);
   EvPrint (banner tools); EvPrint rule].

(** Leaving the two scopes, inner first. *)
Definition shutdown_events : list Event :=
  [EvExit Session; EvExit (Transport server_params)].

(** The events of a startup that failed: scopes entered and left, and calls
    to the server, the failed one last; nothing on the terminal and no call
    of the agent. *)
Definition startup_failure_event (ev : Event) : Prop :=
  match ev with
  | EvEnter _ _ | EvExit _ | EvInitialize _ | EvLoadTools (Raise _) => True
  | _ => False
  end.

(** The tool discoveries of a trace, in order, with what each returned. *)
Fixpoint discoveries (tr : list Event) : list (Result (list Tool)) :=
  match tr with
  | [] => []
  | EvLoadTools r :: tr' => r :: discoveries tr'
  | _ :: tr' => discoveries tr'
  end.

End Script.

(** ** The reasoning loop

    The loop that [agent.ainvoke] runs is built by [create_react_agent] of
    [langgraph.prebuilt]; the script only calls it, and its code is not
    part of the script.  The definitions of this module follow sections
    3, 4.3 and 4.4 of the specification. *)

Module ReasoningLoop.

(** Modelled from the spec: the Agent Decision of section 3, which the LLM
    oracle produces inside the agent of [create_react_agent] (absent from
    the sources): a final answer, or a call of a tool with its arguments. *)
Inductive AgentDecision :=
  | FinalAnswer (text : string)
  | ToolCall (tool_name : string) (arguments : string).

(** Modelled from the spec: the outcome of [callTool] of section 4.2 (the
    tool session is absent from the sources): a success payload, a
    failure-variant result with its message, or a timeout. *)
Inductive ToolInvocationResult :=
  | Success (payload : string)
  | Failure (message : string)
  | ToolTimeout.

(** Modelled from the spec: the end of a turn of the reasoning loop of
    section 4.4 (absent from the sources): the final text or the reported
    oracle error, the history the loop leaves, the world, and the number of
    oracle queries (iterations) it made. *)
Record Outcome {World : Type} := {
  result : Result string;
  final_history : list Message;
  final_world : World;
  iterations : nat
}.
Arguments Outcome : clear implicits.

(** Modelled from the spec: the text of the fallback of section 4.4, step 4
    (absent from the sources), which states that the loop was aborted. *)
Definition ABORT_FALLBACK : string :=
  "Aborted: the reasoning loop reached its maximum number of iterations.".

Definition assistant_message (text : string) : Message :=
  {| role := assistant; content := text |}.

(** Modelled from the spec: the tool-observation messages of section 4.4,
    step 3 (absent from the sources), for a tool that is not in the
    catalog and for the result of an invocation. *)
Definition tool_not_found (tool_name : string) : Message :=
  {| role := tool; content := "Error: tool not found: " +:+ tool_name |}.

Definition observation (r : ToolInvocationResult) : Message :=
  {| role := tool;
     content := match r with
                | Success payload => payload
                | Failure message => "Error: tool failed: " +:+ message
                | ToolTimeout => "Error: tool timed out"
                end |}.

Section Loop.
Context {World : Type}.

(** The LLM oracle, [decide(history, catalog) -> Decision], which may fail;
    the tool session, [invoke(name, args) -> Result]; the check of a schema
    by the catalog adapter. *)
Variable oracle : list Message -> gmap string Tool -> World -> Result AgentDecision * World.
Variable call_tool : string -> string -> World -> ToolInvocationResult * World.
Variable schema_ok : Tool -> bool.

(** Modelled from the spec: the Tool Catalog Adapter of section 4.3 (absent
    from the sources): the mapping from tool name to tool, without the
    descriptors whose schema is malformed. *)
Definition tool_catalog (descriptors : list Tool) : gmap string Tool :=
  list_to_map ((fun t => (name t, t)) <$> List.filter schema_ok descriptors).

(** Modelled from the spec: the reasoning loop of section 4.4 (absent from
    the sources; the script gets it from [create_react_agent]), with
    [remaining] iterations left of the maximum and [queries] oracle queries
    made so far.
    - step 1: ask the oracle for a decision on the current history;
    - step 2: on [FinalAnswer text], append the assistant message and return it;
    - step 3a: on a tool that is not in the catalog, append the observation
      of the error and go on;
    - step 3b: else invoke the tool, append the observation of its result,
      success or failure, and go on;
    - step 4: past the maximum, end with the fallback in the shape of a
      final answer;
    - a failure of the oracle aborts the turn with the error and keeps the
      history as it is. *)
Fixpoint reasoning_loop (catalog : gmap string Tool) (remaining : nat)
    (history : list Message) (w : World) (queries : nat) : Outcome World :=
  match remaining with
  | O =>
      {| result := Ok ABORT_FALLBACK;
         final_history := history ++ [assistant_message ABORT_FALLBACK];
         final_world := w; iterations := queries |}
  | S remaining' =>
      match oracle history catalog w with
      | (Raise err, w') =>
          {| result := Raise err; final_history := history;
             final_world := w'; iterations := S queries |}
      | (Ok (FinalAnswer text), w') =>
          {| result := Ok text;
             final_history := history ++ [assistant_message text];
             final_world := w'; iterations := S queries |}
      | (Ok (ToolCall tool_name arguments), w') =>
          match catalog !! tool_name with
          | None =>
              reasoning_loop catalog remaining'
                (history ++ [tool_not_found tool_name]) w' (S queries)
          | Some _ =>
              let (r, w'') := call_tool tool_name arguments w' in
              reasoning_loop catalog remaining'
                (history ++ [observation r]) w'' (S queries)
          end
      end
  end.

(** Modelled from the spec: one turn of the reasoning loop of section 4.4
    (absent from the sources) on the catalog of the discovered tools, with
    the maximum iteration count [max_iterations]. *)
Definition turn (max_iterations : nat) (descriptors : list Tool)
    (history : list Message) (w : World) : Outcome World :=
  reasoning_loop (tool_catalog descriptors) max_iterations history w 0.

(** The oracle never gives a final answer: every query succeeds with a tool
    call. *)
Definition only_tool_calls (catalog : gmap string Tool) : Prop :=
  forall history w, exists tool_name arguments w',
    oracle history catalog w = (Ok (ToolCall tool_name arguments), w').

End Loop.

End ReasoningLoop.

(** ** Scripted collaborators, for examples *)

Module Demo.

Definition firecrawl_scrape : Tool :=
  {| name := "firecrawl_scrape"; description := "Scrape a single page";
     args_schema := "{url: string}" |}.
Definition firecrawl_search : Tool :=
  {| name := "firecrawl_search"; description := "Search the web";
     args_schema := "{query: string}" |}.

Definition timeout_error : PyExn :=
  {| exn_class := "APITimeoutError"; exn_str := "Request timed out." |}.

(** The agent of the examples; the world counts its calls.  The first call
    answers ["4"], the second raises, the third returns no message at all,
    later ones answer ["ok"]. *)
Definition answer (calls : nat) (history : list Message) : Result (list Message) :=
  match calls with
  | 0 => Ok (history ++ [ {| role := assistant; content := "4" |} ])
  | 1 => Raise timeout_error
  | 2 => Ok []
  | _ => Ok (history ++ [ {| role := assistant; content := "ok" |} ])
  end.

(** The exit of a scope that runs a task group, as the transport and the
    session do: a normal outcome stays, an exception of the body leaves
    inside an [ExceptionGroup]. *)
Definition ExceptionGroup (e : PyExn) : PyExn :=
  {| exn_class := "ExceptionGroup";
     exn_str := "unhandled errors in a TaskGroup (1 sub-exception)" |}.

Definition task_group_exit (r : Result unit) : Result unit :=
  match r with
  | Ok _ => Ok tt
  | Raise e => Raise (ExceptionGroup e)
  end.

Definition scripted : Collaborators :=
  {| World := nat;
     getenv := fun _ => None;
     scope_enter := fun _ w => (Ok tt, w);
     scope_exit := fun _ r w => (task_group_exit r, w);
     session_initialize := fun w => (Ok tt, w);
     load_mcp_tools := fun w => (Ok [firecrawl_scrape; firecrawl_search], w);
     agent_ainvoke := fun _ history w => (answer w history, S w) |}.

Definition agent : Agent :=
  create_react_agent (model (C := scripted)) [firecrawl_scrape; firecrawl_search].

(** The state of a session right after startup, before the first prompt,
    with [calls] agent calls behind it. *)
Definition started (calls : nat) : State (C := scripted) :=
  @Build_State scripted calls [SYSTEM_PROMPT] [].

(** An oracle that calls a tool on every query, and a tool session that
    always succeeds; the world is not used. *)
Definition stubborn_oracle (history : list Message) (catalog : gmap string Tool)
    (w : unit) : Result ReasoningLoop.AgentDecision * unit :=
  (Ok (ReasoningLoop.ToolCall "firecrawl_scrape" "{url: example.org}"), w).

Definition page_tool (tool_name arguments : string) (w : unit)
    : ReasoningLoop.ToolInvocationResult * unit :=
  (ReasoningLoop.Success "page text", w).

(** An input one character longer than the cap. *)
Definition long_input : string := Py.str_mul "a" (S INPUT_CAP).

End Demo.

(** ** Vocabulary for whole sessions *)

(** The exit test of line 113, as a boolean. *)
Definition is_exit_token (user_input : string) : bool :=
  bool_decide (user_input ∈ EXIT_TOKENS).

(** The lines that become turns: those before the first exit token. *)
Fixpoint turn_lines (lines : list string) : list string :=
  match lines with
  | [] => []
  | line :: rest => if is_exit_token line then [] else line :: turn_lines rest
  end.


(** The scopes a trace entered (the entry returned), in order. *)
Fixpoint entered (tr : list Event) : list Scope :=
  match tr with
  | [] => []
  | EvEnter s (Ok _) :: tr' => s :: entered tr'
  | _ :: tr' => entered tr'
  end.

(** The scopes a trace left, in order. *)
Fixpoint exited (tr : list Event) : list Scope :=
  match tr with
  | [] => []
  | EvExit s :: tr' => s :: exited tr'
  | _ :: tr' => exited tr'
  end.

(** The histories the agent was called on, in order. *)
Fixpoint call_histories (tr : list Event) : list (list Message) :=
  match tr with
  | [] => []
  | EvInvoke _ history _ :: tr' => history :: call_histories tr'
  | _ :: tr' => call_histories tr'
  end.

(** [ev] logs a call of the startup that raised [e]. *)
Definition startup_error (e : PyExn) (ev : Event) : Prop :=
  (exists s, ev = EvEnter s (Raise e)) \/
  ev = EvInitialize (Raise e) \/
  ev = EvLoadTools (Raise e).

(** Leaving a scope never swallows an exception: the exit of a scope whose
    body raised raises (the same exception or another). *)
Definition exits_keep_exceptions `{C : Collaborators} : Prop :=
  forall s e w, raised (scope_exit s (Raise e) w).1.

(** Leaving a scope whose body ended normally ends normally. *)
Definition exits_return_normally `{C : Collaborators} : Prop :=
  forall s w, (scope_exit s (Ok tt) w).1 = Ok tt.

(** ** Collaborators whose server does not answer the handshake *)

Module Outage.

Definition handshake_error : PyExn :=
  {| exn_class := "McpError"; exn_str := "Connection closed" |}.

Definition collaborators : Collaborators :=
  {| World := unit;
     getenv := fun _ => None;
     scope_enter := fun _ w => (Ok tt, w);
     scope_exit := fun _ r w => (Demo.task_group_exit r, w);
     session_initialize := fun w => (Raise handshake_error, w);
     load_mcp_tools := fun w => (Ok [], w);
     agent_ainvoke := fun _ history w => (Ok history, w) |}.

End Outage.

(** * Part II: lemmas and theorems *)

(** ** Strings *)

Section PyFacts.

Lemma str_app_assoc (a b c : string) : (a +:+ b) +:+ c = a +:+ (b +:+ c).
Proof.
  induction a as [|x a IH]; [done|].
  change (String x ((a +:+ b) +:+ c) = String x (a +:+ (b +:+ c))). by rewrite IH.
Qed.

Lemma slice_to_cons n c s :
  Py.slice_to (S n) (String c s) = String c (Py.slice_to n s).
Proof. done. Qed.

Lemma len_slice_to n s : Py.len (Py.slice_to n s) = Nat.min n (Py.len s).
Proof.
  unfold Py.slice_to, Py.len.
  revert s; induction n as [|n IH]; intros [|c s]; simpl; try done.
  f_equal. apply IH.
Qed.

Lemma slice_to_prefix n s : Py.str_prefix (Py.slice_to n s) s.
Proof.
  revert s; induction n as [|n IH]; intros s.
  - exists s. by destruct s.
  - destruct s as [|c s]; [by exists EmptyString|].
    destruct (IH s) as [k Hk]. exists k.
    rewrite slice_to_cons.
    change (String c s = String c (Py.slice_to n s +:+ k)). by rewrite <- Hk.
Qed.

Lemma slice_to_short n s : Py.len s <= n -> Py.slice_to n s = s.
Proof.
  unfold Py.slice_to, Py.len.
  revert s; induction n as [|n IH]; intros [|c s] Hle; simpl in *; try done; try lia.
  rewrite IH; [done | lia].
Qed.

(** A slice that is shorter than the string is a strict prefix of it. *)
Lemma slice_to_strict n s :
  n < Py.len s -> Py.str_strict_prefix (Py.slice_to n s) s.
Proof.
  intros Hlt. split; [apply slice_to_prefix|].
  intros Heq. apply (f_equal Py.len) in Heq.
  rewrite len_slice_to in Heq. lia.
Qed.

Lemma len_str_mul c n : Py.len (Py.str_mul (String c EmptyString) n) = n.
Proof.
  induction n as [|n IH]; [done|].
  change (S (Py.len (Py.str_mul (String c EmptyString) n)) = S n). by f_equal.
Qed.

(** [print(a, b)] writes [a], a space, [b] and a line feed. *)
Lemma print_text_two (a b : string) :
  Py.print_text [a; b] = a +:+ " " +:+ b +:+ Py.LF.
Proof. unfold Py.print_text; simpl. by rewrite str_app_assoc. Qed.

(** [print(head, *rest)] writes [head], then each of [rest] after a space,
    then a line feed. *)
Lemma print_text_cons (head : string) (rest : list string) :
  Py.print_text (head :: rest) =
  head +:+ foldr (fun p acc => " " +:+ p +:+ acc) Py.LF rest.
Proof.
  unfold Py.print_text. revert head.
  induction rest as [|p rest IH]; intros head; [done|].
  change (Py.join " " (head :: p :: rest)) with (head +:+ " " +:+ Py.join " " (p :: rest)).
  rewrite str_app_assoc. f_equal.
  change ((" " +:+ Py.join " " (p :: rest)) +:+ Py.LF)
    with (" " +:+ (Py.join " " (p :: rest) +:+ Py.LF)).
  by rewrite IH.
Qed.

Lemma exit_token_iff (s : string) : s ∈ EXIT_TOKENS <-> s = "quit" \/ s = "q".
Proof. unfold EXIT_TOKENS. set_solver. Qed.

Lemma INPUT_CAP_large : 4 < INPUT_CAP.
Proof. unfold INPUT_CAP. apply Nat.ltb_lt. reflexivity. Qed.

(** A line longer than the cap is not an exit token. *)
Lemma long_not_exit_token (s : string) : INPUT_CAP < Py.len s -> s ∉ EXIT_TOKENS.
Proof.
  intros Hlen [-> | ->]%exit_token_iff; pose proof INPUT_CAP_large;
    unfold Py.len in Hlen; simpl in Hlen; lia.
Qed.

End PyFacts.

(** ** What one pass through the loop does *)

Section Turn.
Context `{C : Collaborators}.

Lemma loop_body_eof agent st :
  loop_body agent None st = (Raise EOFError, after_eof st).
Proof. done. Qed.

Lemma loop_body_exit agent user_input st :
  user_input ∈ EXIT_TOKENS ->
  loop_body agent (Some user_input) st = (Ok Return, after_exit user_input st).
Proof.
  intros Hin. unfold loop_body, bind, input, emit, ret; simpl.
  rewrite bool_decide_eq_true_2 by done.
  unfold print, emit, after_exit; simpl. by rewrite <- app_assoc.
Qed.

Lemma loop_body_turn agent user_input st :
  user_input ∉ EXIT_TOKENS ->
  loop_body agent (Some user_input) st = (Ok Continue, after_turn agent user_input st).
Proof.
  intros Hin. unfold loop_body, bind, input, emit, ret; simpl.
  rewrite bool_decide_eq_false_2 by done.
  unfold after_turn, try_except, ainvoke, external, messages_append; simpl.
  fold (user_message user_input).
  destruct (agent_ainvoke agent (messages st ++ [user_message user_input]) (world st))
    as [[response_messages|err] w]; simpl.
  - unfold last_content. destruct (last response_messages) as [m|]; simpl;
      unfold print, emit, raise; simpl; by rewrite <- !app_assoc.
  - unfold print, emit; simpl. by rewrite <- !app_assoc.
Qed.

Lemma repl_nil agent st : repl agent [] st = (Raise EOFError, after_eof st).
Proof. done. Qed.

Lemma repl_exit agent user_input rest st :
  user_input ∈ EXIT_TOKENS ->
  repl agent (user_input :: rest) st = (Ok tt, after_exit user_input st).
Proof. intros Hin. simpl. unfold bind at 1. by rewrite loop_body_exit. Qed.

Lemma repl_turn agent user_input rest st :
  user_input ∉ EXIT_TOKENS ->
  repl agent (user_input :: rest) st = repl agent rest (after_turn agent user_input st).
Proof. intros Hin. simpl. unfold bind at 1. by rewrite loop_body_turn. Qed.

Lemma after_turn_messages agent user_input st :
  messages (after_turn agent user_input st) = messages st ++ [user_message user_input].
Proof. unfold after_turn. by destruct (agent_ainvoke _ _ _). Qed.

Lemma after_turn_trace agent user_input st :
  let history := messages st ++ [user_message user_input] in
  let r := (agent_ainvoke agent history (world st)).1 in
  trace (after_turn agent user_input st) =
  trace st ++ [EvInput PROMPT user_input; EvInvoke agent history r;
               EvPrint (turn_output r)].
Proof. unfold after_turn. by destruct (agent_ainvoke _ _ _). Qed.

(** The state after a turn, when the outcome of the agent call is known. *)
Lemma after_turn_eq agent user_input st r w :
  agent_ainvoke agent (messages st ++ [user_message user_input]) (world st) = (r, w) ->
  after_turn agent user_input st =
  {| world := w; messages := messages st ++ [user_message user_input];
     trace := trace st ++ [EvInput PROMPT user_input;
                           EvInvoke agent (messages st ++ [user_message user_input]) r;
                           EvPrint (turn_output r)] |}.
Proof. intros Hcall. unfold after_turn. by rewrite Hcall. Qed.

Lemma turn_output_answer response_messages m :
  last response_messages = Some m ->
  turn_output (Ok response_messages) = Py.LF +:+ "Agent: " +:+ content m +:+ Py.LF.
Proof. intros Hlast. unfold turn_output. rewrite Hlast. by rewrite print_text_two. Qed.

Lemma turn_output_error err :
  turn_output (Raise err) = "Error: " +:+ exn_str err +:+ Py.LF.
Proof. unfold turn_output. by rewrite print_text_two. Qed.

(** The loop only adds events to the trace. *)
Lemma repl_trace_extends agent lines st :
  exists evs, trace (repl agent lines st).2 = trace st ++ evs.
Proof.
  revert st. induction lines as [|user_input rest IH]; intros st.
  - rewrite repl_nil. by eexists.
  - destruct (decide (user_input ∈ EXIT_TOKENS)) as [Hin|Hin].
    + rewrite repl_exit by done. by eexists.
    + rewrite repl_turn by done.
      destruct (IH (after_turn agent user_input st)) as [evs Hevs].
      rewrite Hevs, after_turn_trace, <- app_assoc. by eexists.
Qed.

(** Whatever the input, the loop starts with the prompt. *)
Lemma repl_prompt_first agent lines st :
  exists ev evs,
    trace (repl agent lines st).2 = trace st ++ ev :: evs /\ prompt_event ev.
Proof.
  destruct lines as [|user_input rest].
  - rewrite repl_nil. exists (EvEof PROMPT), []. split; [done | by left].
  - destruct (decide (user_input ∈ EXIT_TOKENS)) as [Hin|Hin].
    + rewrite repl_exit by done. eexists _, _. split; [done|]. right. by eexists.
    + rewrite repl_turn by done.
      destruct (repl_trace_extends agent rest (after_turn agent user_input st))
        as [evs Hevs].
      rewrite Hevs, after_turn_trace, <- app_assoc.
      eexists _, _. split; [done|]. right. by eexists.
Qed.

End Turn.

(** ** What a session does *)

(** Case analysis on what the exits of the scopes return. *)
Ltac leave_scopes :=
  repeat match goal with
         | |- context [scope_exit ?s ?r ?w] =>
             let E := fresh "Hexit" in
             destruct (scope_exit s r w) as [? ?] eqn:E; simpl
         end.

Section Session.
Context `{C : Collaborators}.

Lemma loop_event_base agent h0 m ev :
  is_user m -> loop_event agent (h0 ++ [m]) ev -> loop_event agent h0 ev.
Proof.
  intros Hm. destruct ev; simpl; try done.
  intros [-> (us & -> & Hus)]. split; [done|].
  exists (m :: us). rewrite <- app_assoc. split; [done | by constructor].
Qed.

(** The loop only appends user messages to the history, and only adds loop
    events to the trace. *)
Lemma repl_spec agent lines st :
  exists us evs,
    messages (repl agent lines st).2 = messages st ++ us /\
    Forall is_user us /\
    trace (repl agent lines st).2 = trace st ++ evs /\
    Forall (loop_event agent (messages st)) evs.
Proof.
  revert st. induction lines as [|user_input rest IH]; intros st.
  - rewrite repl_nil. exists [], [EvEof PROMPT]. simpl.
    rewrite app_nil_r. repeat split; try done. by repeat constructor.
  - destruct (decide (user_input ∈ EXIT_TOKENS)) as [Hin|Hin].
    + rewrite repl_exit by done.
      exists [], [EvInput PROMPT user_input; EvPrint (Py.print_text ["Goodbye!"])].
      simpl. rewrite app_nil_r. repeat split; try done. by repeat constructor.
    + rewrite repl_turn by done.
      destruct (IH (after_turn agent user_input st)) as (us & evs & Hm & Hus & Ht & Hevs).
      rewrite after_turn_messages in Hm, Hevs. rewrite after_turn_trace in Ht.
      assert (Hu : is_user (user_message user_input)) by done.
      eexists (user_message user_input :: us), (_ :: _ :: _ :: evs).
      split; [by rewrite Hm, <- app_assoc|].
      split; [by constructor|].
      split; [by rewrite Ht, <- app_assoc|].
      repeat constructor; simpl; try done.
      * exists [user_message user_input]. split; [done | by constructor].
      * eapply Forall_impl; [exact Hevs|]. intros ev. by apply loop_event_base.
Qed.

(** A run either fails at startup, with an empty history and nothing on the
    terminal, or is a startup, the events of the loop, and the shutdown. *)
Lemma run_shape lines w :
  (messages (run lines w).2 = [] /\
   Forall startup_failure_event (trace (run lines w).2) /\
   length (discoveries (trace (run lines w).2)) <= 1) \/
  (exists tools us evs,
     trace (run lines w).2 = startup_events tools ++ evs ++ shutdown_events /\
     Forall (loop_event (create_react_agent model tools) [SYSTEM_PROMPT]) evs /\
     messages (run lines w).2 = SYSTEM_PROMPT :: us /\
     Forall is_user us).
Proof.
  unfold run, main, async_with, bind, external, initial; simpl.
  destruct (scope_enter (Transport server_params) w) as [[[]|e1] w1]; simpl;
    [|leave_scopes; left; repeat split; simpl; try lia; by repeat constructor].
  destruct (scope_enter Session w1) as [[[]|e2] w2]; simpl;
    [|leave_scopes; left; repeat split; simpl; try lia; by repeat constructor].
  destruct (session_initialize w2) as [[[]|e3] w3]; simpl;
    [|leave_scopes; left; repeat split; simpl; try lia; by repeat constructor].
  destruct (load_mcp_tools w3) as [[tools|e4] w4]; simpl;
    [|leave_scopes; left; repeat split; simpl; try lia; by repeat constructor].
  right.
  match goal with |- context [repl ?a lines ?st] =>
    destruct (repl_spec a lines st) as (us & evs & Hm & Hus & Ht & Hevs);
    destruct (repl a lines st) as [r st'] end.
  simpl in *. leave_scopes. exists tools, us, evs.
  rewrite Ht, Hm. unfold startup_events, shutdown_events.
  rewrite <- !app_assoc. done.
Qed.

(** A run whose four startup calls return: the loop runs on the state that
    the startup leaves, between the events of the startup and those of the
    shutdown. *)
Lemma run_started lines w w1 w2 w3 w4 tools :
  scope_enter (Transport server_params) w = (Ok tt, w1) ->
  scope_enter Session w1 = (Ok tt, w2) ->
  session_initialize w2 = (Ok tt, w3) ->
  load_mcp_tools w3 = (Ok tools, w4) ->
  trace (run lines w).2 =
    trace (repl (create_react_agent model tools) lines
             {| world := w4; messages := [SYSTEM_PROMPT];
                trace := startup_events tools |}).2
    ++ shutdown_events /\
  messages (run lines w).2 =
    messages (repl (create_react_agent model tools) lines
                {| world := w4; messages := [SYSTEM_PROMPT];
                   trace := startup_events tools |}).2.
Proof.
  intros H1 H2 H3 H4.
  unfold run, main, async_with, bind, external, initial; simpl.
  rewrite H1; simpl. rewrite H2; simpl. rewrite H3; simpl. rewrite H4; simpl.
  fold (banner tools). fold rule.
  change [EvEnter (Transport server_params) (Ok tt); EvEnter Session (Ok tt);
          EvInitialize (Ok tt); EvLoadTools (Ok tools);
          EvPrint (banner tools); EvPrint rule] with (startup_events tools).
  destruct (repl (create_react_agent model tools) lines _) as [r st'].
  simpl. leave_scopes. unfold shutdown_events. by rewrite <- app_assoc.
Qed.

Lemma discoveries_app tr1 tr2 :
  discoveries (tr1 ++ tr2) = discoveries tr1 ++ discoveries tr2.
Proof.
  induction tr1 as [|ev tr1 IH]; [done|].
  destruct ev; simpl; by rewrite ?IH.
Qed.

(** An event that is not among the first events of a trace lies behind
    them. *)
Lemma split_behind {A} (front rest before after : list A) (x : A) :
  front ++ rest = before ++ x :: after -> x ∉ front ->
  exists k, before = front ++ k /\ rest = k ++ x :: after.
Proof.
  revert before. induction front as [|y front IH]; intros before Heq Hx.
  - by exists before.
  - destruct before as [|b before]; simplify_eq/=.
    + exfalso. apply Hx. by left.
    + destruct (IH before) as (k & -> & ->); [done| |by exists k].
      intros Hin. apply Hx. by right.
Qed.

End Session.

(** ** The turn: exit tokens, the input cap, errors *)

Section TurnClaims.
Context `{C : Collaborators}.

(** C6: when the line read is exactly ["quit"] or exactly ["q"], the loop
    returns at once: it prints the farewell, leaves the lines behind it
    unread, does not call the agent (the world is untouched and no
    [EvInvoke] is logged) and appends nothing to the history. *)
Theorem exit_token_ends_repl agent user_input rest st :
  user_input = "quit" \/ user_input = "q" ->
  repl agent (user_input :: rest) st =
  (Ok tt, {| world := world st; messages := messages st;
             trace := trace st ++ [EvInput PROMPT user_input;
                                   EvPrint ("Goodbye!" +:+ Py.LF)] |}).
Proof. intros Htok. apply repl_exit. by apply exit_token_iff. Qed.

(** C9: the exit test is exact and case-sensitive.  For every line that is
    not identical to ["quit"] or ["q"], the pass does not return: the line,
    cut at the cap, is appended to the history as a user message, the agent
    is called on that history, and the loop goes on with the next line. *)
Theorem other_input_is_a_turn agent user_input rest st :
  user_input <> "quit" -> user_input <> "q" ->
  let history :=
    messages st ++ [{| role := user; content := Py.slice_to INPUT_CAP user_input |}] in
  let call := agent_ainvoke agent history (world st) in
  let st' := {| world := call.2; messages := history;
                trace := trace st ++ [EvInput PROMPT user_input;
                                      EvInvoke agent history call.1;
                                      EvPrint (turn_output call.1)] |} in
  loop_body agent (Some user_input) st = (Ok Continue, st') /\
  repl agent (user_input :: rest) st = repl agent rest st'.
Proof.
  intros Hquit Hq. cbv zeta.
  assert (Hin : user_input ∉ EXIT_TOKENS) by (rewrite exit_token_iff; tauto).
  rewrite repl_turn, loop_body_turn by done.
  fold (user_message user_input).
  destruct (agent_ainvoke agent (messages st ++ [user_message user_input]) (world st))
    as [r w] eqn:Hcall.
  by rewrite (after_turn_eq _ _ _ _ _ Hcall).
Qed.

(** C3: when the agent call of a turn raises, the turn prints an [Error:]
    line with the message of the error, the loop goes back to the prompt,
    and the history still ends with the user message of that turn. *)
Theorem agent_error_keeps_user_message agent user_input rest st err w :
  user_input ∉ EXIT_TOKENS ->
  agent_ainvoke agent (messages st ++ [user_message user_input]) (world st)
    = (Raise err, w) ->
  let history := messages st ++ [user_message user_input] in
  let st' := {| world := w; messages := history;
                trace := trace st ++ [EvInput PROMPT user_input;
                                      EvInvoke agent history (Raise err);
                                      EvPrint ("Error: " +:+ exn_str err +:+ Py.LF)] |} in
  loop_body agent (Some user_input) st = (Ok Continue, st') /\
  repl agent (user_input :: rest) st = repl agent rest st' /\
  exists ev evs,
    trace (repl agent rest st').2 = trace st' ++ ev :: evs /\ prompt_event ev.
Proof.
  intros Hin Hcall. cbv zeta.
  rewrite repl_turn, loop_body_turn by done.
  rewrite (after_turn_eq _ _ _ _ _ Hcall), turn_output_error.
  repeat split. apply repl_prompt_first.
Qed.

(** C5: for every line longer than the cap of 175,000 characters, the user
    message that the turn stores has exactly 175,000 characters and is a
    strict prefix of the line. *)
Theorem long_input_is_capped agent user_input st :
  INPUT_CAP < Py.len user_input ->
  exists m,
    messages (loop_body agent (Some user_input) st).2 = messages st ++ [m] /\
    role m = user /\
    Py.len (content m) = INPUT_CAP /\
    Py.str_strict_prefix (content m) user_input.
Proof.
  intros Hlen. exists (user_message user_input).
  rewrite loop_body_turn by by apply long_not_exit_token.
  cbn [snd]. rewrite after_turn_messages. repeat split.
  - cbn [content user_message]. rewrite len_slice_to. lia.
  - apply slice_to_prefix.
  - by apply slice_to_strict.
Qed.

(** C1, as the script has it: when the agent call of a turn returns a
    response, the content of its last message is printed as the result of
    the turn, after [Agent: ]; the history of the driver is the history
    before the turn with the user message of the turn appended, and
    nothing else, so that the agent call of the next turn is made on the
    two user messages without the answer between them. *)
Theorem final_answer_is_printed agent user_input st response_messages m w :
  user_input ∉ EXIT_TOKENS ->
  agent_ainvoke agent (messages st ++ [user_message user_input]) (world st)
    = (Ok response_messages, w) ->
  last response_messages = Some m ->
  last (trace (loop_body agent (Some user_input) st).2)
    = Some (EvPrint (Py.LF +:+ "Agent: " +:+ content m +:+ Py.LF)) /\
  messages (loop_body agent (Some user_input) st).2
    = messages st ++ [user_message user_input] /\
  (forall next_input rest,
     next_input ∉ EXIT_TOKENS ->
     exists r,
       EvInvoke agent
         (messages st ++ [user_message user_input; user_message next_input]) r
       ∈ trace (repl agent (user_input :: next_input :: rest) st).2).
Proof.
  intros Hin Hcall Hlast. repeat split.
  - rewrite loop_body_turn by done.
    rewrite (after_turn_eq _ _ _ _ _ Hcall). cbn [snd trace].
    rewrite (turn_output_answer _ _ Hlast). by rewrite !last_app.
  - rewrite loop_body_turn by done. apply after_turn_messages.
  - intros next_input rest Hnext. rewrite !repl_turn by done.
    destruct (repl_trace_extends agent rest
                (after_turn agent next_input (after_turn agent user_input st)))
      as [evs ->].
    rewrite (after_turn_trace agent next_input), after_turn_messages, <- !app_assoc.
    eexists. apply elem_of_app. right.
    apply elem_of_cons. right. apply elem_of_cons. by left.
Qed.

End TurnClaims.

(** ** The session: history, system prompt, tool catalog, terminal *)

(** Membership in a list written out, as a goal and as a hypothesis that
    cannot hold. *)
Ltac list_in := rewrite ?elem_of_app, ?elem_of_cons; auto 10.
Ltac list_out H :=
  rewrite ?elem_of_cons, elem_of_nil in H; intuition discriminate.

Section SessionClaims.
Context `{C : Collaborators}.

(** C4: the history only grows at its end.  Printing, reading a line and
    calling the agent leave it as it is; [messages.append] adds one
    message at the end; a pass through the loop leaves it as it is or adds
    one message at the end; and the history at any point of a session is a
    prefix of the history after any further lines: no entry is changed,
    removed or moved. *)
Theorem history_is_append_only agent lines st :
  (forall args, messages (print args st).2 = messages st) /\
  (forall prompt next, messages (input prompt next st).2 = messages st) /\
  messages (ainvoke agent st).2 = messages st /\
  (forall m, messages (messages_append m st).2 = messages st ++ [m]) /\
  (forall next,
     messages (loop_body agent next st).2 = messages st \/
     exists m, messages (loop_body agent next st).2 = messages st ++ [m]) /\
  messages st `prefix_of` messages (repl agent lines st).2.
Proof.
  repeat split.
  - by intros prompt [line|].
  - unfold ainvoke, external. by destruct (agent_ainvoke _ _ _).
  - intros [user_input|]; [|by left].
    destruct (decide (user_input ∈ EXIT_TOKENS)) as [Hin|Hin].
    + left. by rewrite loop_body_exit.
    + right. exists (user_message user_input).
      rewrite loop_body_turn by done. apply after_turn_messages.
  - destruct (repl_spec agent lines st) as (us & _ & -> & _). by exists us.
Qed.

(** Where a call of the agent can sit in the trace of a run: behind a
    startup that went through, in the events of the loop. *)
Lemma invoke_in_run lines w agent history r :
  EvInvoke agent history r ∈ trace (run lines w).2 ->
  exists tools us evs,
    trace (run lines w).2 = startup_events tools ++ evs ++ shutdown_events /\
    Forall (loop_event (create_react_agent model tools) [SYSTEM_PROMPT]) evs /\
    agent = create_react_agent model tools /\
    history = SYSTEM_PROMPT :: us /\ Forall is_user us.
Proof.
  intros Hin.
  destruct (run_shape lines w) as [(_ & Hfail & _)|(tools & _ & evs & Htr & Hevs & _)].
  - rewrite Forall_forall in Hfail. by apply Hfail in Hin.
  - rewrite Htr in Hin. apply elem_of_app in Hin as [Hin|Hin].
    { unfold startup_events in Hin. list_out Hin. }
    apply elem_of_app in Hin as [Hin|Hin]; [|unfold shutdown_events in Hin; list_out Hin].
    rewrite Forall_forall in Hevs. pose proof (Hevs _ Hin) as [-> (us & -> & Hus)].
    exists tools, us, evs. repeat split; try done. by apply Forall_forall.
Qed.

(** C10: the system prompt is put into the history once, before the loop
    starts, and stays its first element: the history of a run is empty (the
    startup failed) or the system prompt followed by user messages only,
    every history the agent is called on is the system prompt followed by
    user messages only, and the loop appends user messages only, whatever
    state it starts from. *)
Theorem system_prompt_stays_first lines w :
  role SYSTEM_PROMPT = system /\
  (messages (run lines w).2 = [] \/
   exists us, messages (run lines w).2 = SYSTEM_PROMPT :: us /\ Forall is_user us) /\
  (forall agent history r,
     EvInvoke agent history r ∈ trace (run lines w).2 ->
     exists us, history = SYSTEM_PROMPT :: us /\ Forall is_user us) /\
  (forall agent st, exists us,
     messages (repl agent lines st).2 = messages st ++ us /\ Forall is_user us).
Proof.
  repeat split.
  - destruct (run_shape lines w) as [(Hm & _)|(tools & us & evs & _ & _ & Hm & Hus)];
      [by left | right; by exists us].
  - intros agent history r Hin.
    destruct (invoke_in_run _ _ _ _ _ Hin) as (tools & us & evs & _ & _ & _ & -> & Hus).
    by exists us.
  - intros agent st. destruct (repl_spec agent lines st) as (us & _ & Hm & Hus & _).
    by exists us.
Qed.

Lemma discoveries_quiet tr :
  Forall (fun ev => forall r, ev <> EvLoadTools r) tr -> discoveries tr = [].
Proof.
  induction 1 as [|ev tr Hev _ IH]; [done|].
  destruct ev; simpl; try done. by destruct (Hev r).
Qed.

Lemma loop_part_quiet agent h0 evs :
  Forall (loop_event agent h0) evs ->
  Forall (fun ev => forall r, ev <> EvLoadTools r) (evs ++ shutdown_events).
Proof.
  intros Hevs. apply Forall_app. split.
  - eapply Forall_impl; [exact Hevs|]. intros ev Hev r ->. done.
  - unfold shutdown_events. by repeat constructor.
Qed.

(** In a run whose startup went through, whatever comes before an event of
    the loop holds exactly one tool discovery, the one of the startup. *)
Lemma discovery_before_loop tools evs before ev after :
  Forall (loop_event (create_react_agent model tools) [SYSTEM_PROMPT]) evs ->
  startup_events tools ++ evs ++ shutdown_events = before ++ ev :: after ->
  ev ∉ startup_events tools ->
  discoveries before = [Ok tools].
Proof.
  intros Hevs Heq Hev.
  destruct (split_behind _ _ _ _ _ Heq Hev) as (k & -> & Hk).
  rewrite discoveries_app.
  assert (Hq : discoveries k = []).
  { apply discoveries_quiet. pose proof (loop_part_quiet _ _ _ Hevs) as Hquiet.
    rewrite Hk in Hquiet. by apply Forall_app in Hquiet as [? _]. }
  by rewrite Hq.
Qed.

(** C7: the tools are discovered once, at startup, and that catalog serves
    the whole run.  A run holds at most one call of [load_mcp_tools]; before
    every call of the agent and before every prompt there is exactly one
    discovery, which returned the tools the agent was built from; and every
    call of a run goes to the same agent. *)
Theorem tools_discovered_once lines w :
  length (discoveries (trace (run lines w).2)) <= 1 /\
  (forall before agent history r after,
     trace (run lines w).2 = before ++ EvInvoke agent history r :: after ->
     exists tools, discoveries before = [Ok tools] /\
                   agent = create_react_agent model tools) /\
  (forall before ev after,
     trace (run lines w).2 = before ++ ev :: after -> prompt_event ev ->
     exists tools, discoveries before = [Ok tools]) /\
  (forall a1 h1 r1 a2 h2 r2,
     EvInvoke a1 h1 r1 ∈ trace (run lines w).2 ->
     EvInvoke a2 h2 r2 ∈ trace (run lines w).2 -> a1 = a2).
Proof.
  destruct (run_shape lines w)
    as [(_ & Hfail & Hlen)|(tools & _ & evs & Htr & Hevs & _)].
  - rewrite Forall_forall in Hfail. repeat split; [done|..].
    + intros before agent history r after Heq.
      exfalso. apply (Hfail (EvInvoke agent history r)). rewrite Heq. list_in.
    + intros before ev after Heq [->|[line ->]]; exfalso.
      * apply (Hfail (EvEof PROMPT)). rewrite Heq. list_in.
      * apply (Hfail (EvInput PROMPT line)). rewrite Heq. list_in.
    + intros a1 h1 r1 a2 h2 r2 Hin _. by apply Hfail in Hin.
  - rewrite Htr. repeat split.
    + rewrite discoveries_app, (discoveries_quiet _ (loop_part_quiet _ _ _ Hevs)).
      simpl. lia.
    + intros before agent history r after Heq. exists tools. split.
      * apply (discovery_before_loop _ _ _ _ _ Hevs Heq).
        unfold startup_events. intros Hin. list_out Hin.
      * assert (Hin : EvInvoke agent history r ∈ trace (run lines w).2).
        { rewrite Htr, Heq. list_in. }
        destruct (invoke_in_run _ _ _ _ _ Hin) as (tools' & _ & evs' & Htr' & _ & -> & _).
        rewrite Htr in Htr'. unfold startup_events in Htr'. by simplify_eq/=.
    + intros before ev after Heq Hev. exists tools.
      apply (discovery_before_loop _ _ _ _ _ Hevs Heq).
      unfold startup_events. intros Hin. destruct Hev as [->|[line ->]]; list_out Hin.
    + intros a1 h1 r1 a2 h2 r2 Hin1 Hin2. rewrite <- Htr in Hin1, Hin2.
      destruct (invoke_in_run _ _ _ _ _ Hin1) as (t1 & _ & e1 & Htr1 & _ & -> & _).
      destruct (invoke_in_run _ _ _ _ _ Hin2) as (t2 & _ & e2 & Htr2 & _ & -> & _).
      rewrite Htr1 in Htr2. unfold startup_events in Htr2. by simplify_eq/=.
Qed.

End SessionClaims.

Section Surface.
Context `{C : Collaborators}.

(** C8: the terminal surface.  The prompt ends in the line [You: ] and
    every pass through the loop starts by prompting with it; a turn whose
    agent call returns prints [Agent: ] and the content of the last message
    of the response; a turn whose agent call raises prints [Error: ] and
    the message of the error, and so does a turn whose response holds no
    message; and a run whose four startup calls return prints the banner
    with the names of the discovered tools, then a rule, right after the
    discovery, and the first prompt comes right after them. *)
Theorem terminal_surface agent lines w :
  Py.last_line PROMPT = "You: " /\
  (forall next st, exists ev evs,
     trace (loop_body agent next st).2 = trace st ++ ev :: evs /\ prompt_event ev) /\
  (forall user_input st response_messages m w',
     user_input ∉ EXIT_TOKENS ->
     agent_ainvoke agent (messages st ++ [user_message user_input]) (world st)
       = (Ok response_messages, w') ->
     last response_messages = Some m ->
     trace (loop_body agent (Some user_input) st).2 =
     trace st ++ [EvInput PROMPT user_input;
                  EvInvoke agent (messages st ++ [user_message user_input])
                    (Ok response_messages);
                  EvPrint (Py.LF +:+ "Agent: " +:+ content m +:+ Py.LF)]) /\
  (forall user_input st err w',
     user_input ∉ EXIT_TOKENS ->
     agent_ainvoke agent (messages st ++ [user_message user_input]) (world st)
       = (Raise err, w') ->
     trace (loop_body agent (Some user_input) st).2 =
     trace st ++ [EvInput PROMPT user_input;
                  EvInvoke agent (messages st ++ [user_message user_input]) (Raise err);
                  EvPrint ("Error: " +:+ exn_str err +:+ Py.LF)]) /\
  (forall user_input st w',
     user_input ∉ EXIT_TOKENS ->
     agent_ainvoke agent (messages st ++ [user_message user_input]) (world st)
       = (Ok [], w') ->
     trace (loop_body agent (Some user_input) st).2 =
     trace st ++ [EvInput PROMPT user_input;
                  EvInvoke agent (messages st ++ [user_message user_input]) (Ok []);
                  EvPrint ("Error: list index out of range" +:+ Py.LF)]) /\
  (forall w1 w2 w3 w4 tools,
     scope_enter (Transport server_params) w = (Ok tt, w1) ->
     scope_enter Session w1 = (Ok tt, w2) ->
     session_initialize w2 = (Ok tt, w3) ->
     load_mcp_tools w3 = (Ok tools, w4) ->
     exists ev evs,
       trace (run lines w).2 =
         [EvEnter (Transport server_params) (Ok tt); EvEnter Session (Ok tt);
          EvInitialize (Ok tt); EvLoadTools (Ok tools);
          EvPrint ("Available Tools in MCP:" +:+
                   foldr (fun n acc => " " +:+ n +:+ acc) Py.LF (map name tools));
          EvPrint (Py.str_mul "-" 60 +:+ Py.LF)]
         ++ ev :: evs ++ [EvExit Session; EvExit (Transport server_params)] /\
       prompt_event ev /\
       Forall (loop_event (create_react_agent model tools) [SYSTEM_PROMPT]) evs).
Proof.
  split; [done|]. split; [|split; [|split; [|split]]].
  - intros [user_input|] st.
    + destruct (decide (user_input ∈ EXIT_TOKENS)) as [Hin|Hin].
      * rewrite loop_body_exit by done. eexists _, _. split; [done|]. right. by eexists.
      * rewrite loop_body_turn by done. cbn [snd]. rewrite after_turn_trace.
        eexists _, _. split; [done|]. right. by eexists.
    + rewrite loop_body_eof. exists (EvEof PROMPT), []. split; [done | by left].
  - intros user_input st response_messages m w' Hin Hcall Hlast.
    rewrite loop_body_turn by done.
    rewrite (after_turn_eq _ _ _ _ _ Hcall). cbn [snd trace].
    by rewrite (turn_output_answer _ _ Hlast).
  - intros user_input st err w' Hin Hcall.
    rewrite loop_body_turn by done.
    rewrite (after_turn_eq _ _ _ _ _ Hcall). cbn [snd trace].
    by rewrite turn_output_error.
  - intros user_input st w' Hin Hcall.
    rewrite loop_body_turn by done.
    by rewrite (after_turn_eq _ _ _ _ _ Hcall).
  - intros w1 w2 w3 w4 tools H1 H2 H3 H4.
    destruct (run_started lines w _ _ _ _ _ H1 H2 H3 H4) as [Htr _].
    destruct (repl_prompt_first (create_react_agent model tools) lines
                {| world := w4; messages := [SYSTEM_PROMPT];
                   trace := startup_events tools |}) as (ev & evs & Hfirst & Hev).
    destruct (repl_spec (create_react_agent model tools) lines
                {| world := w4; messages := [SYSTEM_PROMPT];
                   trace := startup_events tools |}) as (_ & evs' & _ & _ & Hall & Hloop).
    rewrite Hfirst in Hall. apply app_inv_head in Hall. subst evs'.
    apply Forall_cons in Hloop as [_ Hloop].
    exists ev, evs. split; [|done].
    rewrite Htr, Hfirst. cbn [trace]. unfold startup_events, shutdown_events, banner, rule.
    rewrite print_text_cons, <- app_assoc. done.
Qed.

End Surface.

(** ** The reasoning loop *)

Section LoopClaims.
Import ReasoningLoop.
Context {World : Type}.
Variable oracle : list Message -> gmap string Tool -> World -> Result AgentDecision * World.
Variable call_tool : string -> string -> World -> ToolInvocationResult * World.

(** Whatever the oracle does, a turn makes no more oracle queries than the
    iterations it is given. *)
Lemma reasoning_loop_iterations catalog n history w queries :
  iterations (reasoning_loop oracle call_tool catalog n history w queries) <= queries + n.
Proof.
  revert history w queries. induction n as [|n IH]; intros history w queries; simpl.
  - lia.
  - destruct (oracle history catalog w) as [[[text|tool_name arguments]|err] w'];
      simpl; try lia.
    destruct (catalog !! tool_name).
    + destruct (call_tool tool_name arguments w') as [r w'']. etrans; [apply IH | lia].
    + etrans; [apply IH | lia].
Qed.

(** With an oracle that only ever calls tools, the loop uses up all its
    iterations and ends with the fallback. *)
Lemma reasoning_loop_exhausts catalog n history w queries :
  only_tool_calls oracle catalog ->
  let out := reasoning_loop oracle call_tool catalog n history w queries in
  result out = Ok ABORT_FALLBACK /\
  iterations out = queries + n /\
  last (final_history out) = Some (assistant_message ABORT_FALLBACK).
Proof.
  intros Honly. revert history w queries.
  induction n as [|n IH]; intros history w queries; simpl.
  - repeat split; [lia | by rewrite last_snoc].
  - destruct (Honly history w) as (tool_name & arguments & w' & ->).
    destruct (catalog !! tool_name).
    + destruct (call_tool tool_name arguments w') as [r w''].
      destruct (IH (history ++ [observation r]) w'' (S queries)) as (? & ? & ?).
      repeat split; [done | lia | done].
    + destruct (IH (history ++ [tool_not_found tool_name]) w' (S queries)) as (? & ? & ?).
      repeat split; [done | lia | done].
Qed.

(** C2: a turn of the reasoning loop is bounded by the maximum [n] it is
    given: it never makes more than [n] oracle queries, and with an oracle
    that answers every query with a tool call and never with a final
    answer it ends after exactly [n] iterations with the abort fallback as
    its result, appended to the history as an assistant message, like a
    final answer. *)
Theorem reasoning_loop_is_bounded catalog n history w :
  iterations (reasoning_loop oracle call_tool catalog n history w 0) <= n /\
  (only_tool_calls oracle catalog ->
   result (reasoning_loop oracle call_tool catalog n history w 0) = Ok ABORT_FALLBACK /\
   iterations (reasoning_loop oracle call_tool catalog n history w 0) = n /\
   last (final_history (reasoning_loop oracle call_tool catalog n history w 0))
     = Some {| role := assistant; content := ABORT_FALLBACK |}).
Proof.
  split; [apply (reasoning_loop_iterations catalog n history w 0)|].
  intros Honly. apply (reasoning_loop_exhausts catalog n history w 0 Honly).
Qed.

End LoopClaims.

(** ** The claims on concrete runs *)

#[local] Existing Instance Demo.scripted.

Ltac not_exit_token := rewrite exit_token_iff; by intros [?|?].

(** The variants of the exit tokens are not exit tokens. *)
Example exit_token_variants :
  Forall (fun s => s ∉ EXIT_TOKENS) ["Quit"; "QUIT"; "q "; "exit"; " quit"; "Q"].
Proof. repeat constructor; not_exit_token. Qed.

(** C1 as the specification states it fails: the agent ends the turn on
    ["2+2?"] with the assistant message ["4"] and the turn prints it, yet
    the history after the turn is the system prompt and the user message,
    without that assistant message, and the agent call of the next turn is
    made on a history that holds user messages only. *)
Lemma final_answer_not_in_history :
  agent_ainvoke Demo.agent (messages (Demo.started 0) ++ [user_message "2+2?"])
    (world (Demo.started 0))
  = (Ok [SYSTEM_PROMPT; user_message "2+2?"; {| role := assistant; content := "4" |}], 1)
  /\ last (trace (loop_body Demo.agent (Some "2+2?") (Demo.started 0)).2)
     = Some (EvPrint (Py.LF +:+ "Agent: 4" +:+ Py.LF))
  /\ messages (loop_body Demo.agent (Some "2+2?") (Demo.started 0)).2
     = [SYSTEM_PROMPT; user_message "2+2?"]
  /\ ~ {| role := assistant; content := "4" |}
       ∈ messages (loop_body Demo.agent (Some "2+2?") (Demo.started 0)).2
  /\ EvInvoke Demo.agent [SYSTEM_PROMPT; user_message "2+2?"; user_message "3+3?"]
       (Raise Demo.timeout_error)
     ∈ trace (repl Demo.agent ["2+2?"; "3+3?"] (Demo.started 0)).2.
Proof.
  assert (Hq : "2+2?" ∉ EXIT_TOKENS) by not_exit_token.
  assert (Hq' : "3+3?" ∉ EXIT_TOKENS) by not_exit_token.
  assert (Hm : messages (loop_body Demo.agent (Some "2+2?") (Demo.started 0)).2
               = [SYSTEM_PROMPT; user_message "2+2?"]).
  { by rewrite loop_body_turn. }
  split; [done|]. split; [by rewrite loop_body_turn|]. split; [done|]. split.
  - rewrite Hm. intros Hin. list_out Hin.
  - rewrite !repl_turn, repl_nil by done.
    cbn [snd after_eof trace]. rewrite !after_turn_trace.
    apply elem_of_app. left. apply elem_of_app. right.
    apply elem_of_cons. right. by apply elem_of_cons; left.
Qed.

(** C1 on the first turn of the scripted session. *)
Lemma final_answer_is_printed_witness :
("2+2?" ∉ EXIT_TOKENS) /\
  last (trace (loop_body Demo.agent (Some "2+2?") (Demo.started 0)).2)
    = Some (EvPrint (Py.LF +:+ "Agent: 4" +:+ Py.LF)) /\
  messages (loop_body Demo.agent (Some "2+2?") (Demo.started 0)).2
    = [SYSTEM_PROMPT; user_message "2+2?"].
Proof.
  assert (Hq : "2+2?" ∉ EXIT_TOKENS) by not_exit_token.
  split; [exact Hq|].
  destruct (final_answer_is_printed Demo.agent "2+2?" (Demo.started 0)
              [SYSTEM_PROMPT; user_message "2+2?"; {| role := assistant; content := "4" |}]
              {| role := assistant; content := "4" |} 1 Hq eq_refl eq_refl)
    as (Hprinted & Hhistory & _).
  split; [exact Hprinted | exact Hhistory].
Defined.

(** C3 on the second agent call of the scripted session, which times out. *)
Lemma agent_error_keeps_user_message_witness :
("hello" ∉ EXIT_TOKENS) /\
  agent_ainvoke Demo.agent (messages (Demo.started 1) ++ [user_message "hello"])
    (world (Demo.started 1)) = (Raise Demo.timeout_error, 2) /\
  loop_body Demo.agent (Some "hello") (Demo.started 1) =
  (Ok Continue,
   @Build_State Demo.scripted 2 [SYSTEM_PROMPT; user_message "hello"]
     [EvInput PROMPT "hello";
      EvInvoke Demo.agent [SYSTEM_PROMPT; user_message "hello"] (Raise Demo.timeout_error);
      EvPrint ("Error: Request timed out." +:+ Py.LF)]).
Proof.
  assert (Hq : "hello" ∉ EXIT_TOKENS) by not_exit_token.
  split; [exact Hq|]. split; [reflexivity|].
  exact (proj1 (agent_error_keeps_user_message Demo.agent "hello" ["q"] (Demo.started 1)
                  Demo.timeout_error 2 Hq eq_refl)).
Defined.

(** C5 on a line of 175,001 characters. *)
Lemma long_input_is_capped_witness :
  INPUT_CAP < Py.len Demo.long_input /\
  exists m,
    messages (loop_body Demo.agent (Some Demo.long_input) (Demo.started 0)).2
      = messages (Demo.started 0) ++ [m] /\
    role m = user /\
    Py.len (content m) = INPUT_CAP /\
    Py.str_strict_prefix (content m) Demo.long_input.
Proof.
  assert (Hlen : INPUT_CAP < Py.len Demo.long_input).
  { unfold Demo.long_input. rewrite len_str_mul. apply Nat.lt_succ_diag_r. }
  split; [exact Hlen|].
  exact (long_input_is_capped Demo.agent Demo.long_input (Demo.started 0) Hlen).
Defined.

(** C6 on the line ["q"], with a line behind it that is never read. *)
Lemma exit_token_ends_repl_witness :
  ("q" = "quit" \/ "q" = "q") /\
  repl Demo.agent ["q"; "never read"] (Demo.started 0) =
  (Ok tt,
   @Build_State Demo.scripted 0 [SYSTEM_PROMPT]
     [EvInput PROMPT "q"; EvPrint ("Goodbye!" +:+ Py.LF)]).
Proof.
  split; [by right|].
  apply (exit_token_ends_repl Demo.agent "q" ["never read"] (Demo.started 0)).
  by right.
Defined.

(** C9 on the line ["Quit"]. *)
Lemma other_input_is_a_turn_witness :
  "Quit" <> "quit" /\ "Quit" <> "q" /\
  loop_body Demo.agent (Some "Quit") (Demo.started 0) =
  (Ok Continue,
   @Build_State Demo.scripted 1 [SYSTEM_PROMPT; {| role := user; content := "Quit" |}]
     [EvInput PROMPT "Quit";
      EvInvoke Demo.agent [SYSTEM_PROMPT; {| role := user; content := "Quit" |}]
        (Ok [SYSTEM_PROMPT; {| role := user; content := "Quit" |};
             {| role := assistant; content := "4" |}]);
      EvPrint (Py.LF +:+ "Agent: 4" +:+ Py.LF)]).
Proof.
  assert (H1 : "Quit" <> "quit") by done.
  assert (H2 : "Quit" <> "q") by done.
  split; [exact H1|]. split; [exact H2|].
  exact (proj1 (other_input_is_a_turn Demo.agent "Quit" ["q"] (Demo.started 0) H1 H2)).
Defined.

(** The session of the examples: one question, then ["q"]. *)
Example scripted_session :
  trace (run (C := Demo.scripted) ["2+2?"; "q"] 0).2 =
  (startup_events [Demo.firecrawl_scrape; Demo.firecrawl_search]
     ++ [EvInput PROMPT "2+2?"])
  ++ EvInvoke Demo.agent [SYSTEM_PROMPT; user_message "2+2?"]
       (Ok [SYSTEM_PROMPT; user_message "2+2?"; {| role := assistant; content := "4" |}])
  :: [EvPrint (Py.LF +:+ "Agent: 4" +:+ Py.LF);
      EvInput PROMPT "q"; EvPrint ("Goodbye!" +:+ Py.LF);
      EvExit Session; EvExit (Transport server_params)].
Proof. reflexivity. Qed.

(** C7 on the agent call of that session. *)
Lemma tools_discovered_once_witness :
  trace (run (C := Demo.scripted) ["2+2?"; "q"] 0).2 =
  (startup_events [Demo.firecrawl_scrape; Demo.firecrawl_search]
     ++ [EvInput PROMPT "2+2?"])
  ++ EvInvoke Demo.agent [SYSTEM_PROMPT; user_message "2+2?"]
       (Ok [SYSTEM_PROMPT; user_message "2+2?"; {| role := assistant; content := "4" |}])
  :: [EvPrint (Py.LF +:+ "Agent: 4" +:+ Py.LF);
      EvInput PROMPT "q"; EvPrint ("Goodbye!" +:+ Py.LF);
      EvExit Session; EvExit (Transport server_params)] /\
  exists tools,
    discoveries (startup_events [Demo.firecrawl_scrape; Demo.firecrawl_search]
                   ++ [EvInput PROMPT "2+2?"]) = [Ok tools] /\
    Demo.agent = create_react_agent model tools.
Proof.
  split; [exact scripted_session|].
  exact (proj1 (proj2 (tools_discovered_once (C := Demo.scripted) ["2+2?"; "q"] 0))
           _ _ _ _ _ scripted_session).
Defined.

(** C10 on the agent call of that session. *)
Lemma system_prompt_stays_first_witness :
  EvInvoke Demo.agent [SYSTEM_PROMPT; user_message "2+2?"]
    (Ok [SYSTEM_PROMPT; user_message "2+2?"; {| role := assistant; content := "4" |}])
  ∈ trace (run (C := Demo.scripted) ["2+2?"; "q"] 0).2 /\
  exists us, [SYSTEM_PROMPT; user_message "2+2?"] = SYSTEM_PROMPT :: us /\ Forall is_user us.
Proof.
  assert (Hin : EvInvoke Demo.agent [SYSTEM_PROMPT; user_message "2+2?"]
             (Ok [SYSTEM_PROMPT; user_message "2+2?"; {| role := assistant; content := "4" |}])
           ∈ trace (run (C := Demo.scripted) ["2+2?"; "q"] 0).2).
  { rewrite scripted_session. list_in. }
  split; [exact Hin|].
  exact (proj1 (proj2 (proj2 (system_prompt_stays_first (C := Demo.scripted) ["2+2?"; "q"] 0)))
           _ _ _ Hin).
Defined.

(** C8 on an answered turn, on a failed turn and on the startup of the
    scripted session. *)
Lemma terminal_surface_witness :
  ("2+2?" ∉ EXIT_TOKENS) /\
  trace (loop_body Demo.agent (Some "2+2?") (Demo.started 0)).2 =
  [EvInput PROMPT "2+2?";
   EvInvoke Demo.agent [SYSTEM_PROMPT; user_message "2+2?"]
     (Ok [SYSTEM_PROMPT; user_message "2+2?"; {| role := assistant; content := "4" |}]);
   EvPrint (Py.LF +:+ "Agent: 4" +:+ Py.LF)] /\
  trace (loop_body Demo.agent (Some "2+2?") (Demo.started 1)).2 =
  [EvInput PROMPT "2+2?";
   EvInvoke Demo.agent [SYSTEM_PROMPT; user_message "2+2?"] (Raise Demo.timeout_error);
   EvPrint ("Error: Request timed out." +:+ Py.LF)] /\
  exists ev evs,
    trace (run (C := Demo.scripted) ["2+2?"; "q"] 0).2 =
      [EvEnter (Transport server_params) (Ok tt); EvEnter Session (Ok tt);
       EvInitialize (Ok tt);
       EvLoadTools (Ok [Demo.firecrawl_scrape; Demo.firecrawl_search]);
       EvPrint ("Available Tools in MCP: firecrawl_scrape firecrawl_search" +:+ Py.LF);
       EvPrint (Py.str_mul "-" 60 +:+ Py.LF)]
      ++ ev :: evs ++ [EvExit Session; EvExit (Transport server_params)] /\
    prompt_event ev /\
    Forall (loop_event Demo.agent [SYSTEM_PROMPT]) evs.
Proof.
  assert (Hq : "2+2?" ∉ EXIT_TOKENS) by not_exit_token.
  destruct (terminal_surface (C := Demo.scripted) Demo.agent ["2+2?"; "q"] 0)
    as (_ & _ & Hanswer & Herror & _ & Hbanner).
  split; [exact Hq|]. split; [|split].
  - exact (Hanswer "2+2?" (Demo.started 0) _ _ 1 Hq eq_refl eq_refl).
  - exact (Herror "2+2?" (Demo.started 1) Demo.timeout_error 2 Hq eq_refl).
  - exact (Hbanner 0 0 0 0 [Demo.firecrawl_scrape; Demo.firecrawl_search]
             eq_refl eq_refl eq_refl eq_refl).
Defined.

(** The reasoning loop with three iterations, on an oracle that asks for a
    page again and again: three observations, then the fallback. *)
Example stubborn_turn :
  ReasoningLoop.final_history
    (ReasoningLoop.turn Demo.stubborn_oracle Demo.page_tool (fun _ => true) 3
       [Demo.firecrawl_scrape; Demo.firecrawl_search]
       [SYSTEM_PROMPT; user_message "go"] tt)
  = [SYSTEM_PROMPT; user_message "go";
     {| role := tool; content := "page text" |};
     {| role := tool; content := "page text" |};
     {| role := tool; content := "page text" |};
     {| role := assistant; content := ReasoningLoop.ABORT_FALLBACK |}].
Proof. vm_compute. reflexivity. Qed.

(** C2 on that oracle. *)
Lemma reasoning_loop_is_bounded_witness :
  ReasoningLoop.only_tool_calls Demo.stubborn_oracle
    (ReasoningLoop.tool_catalog (fun _ => true) [Demo.firecrawl_scrape; Demo.firecrawl_search]) /\
  ReasoningLoop.result
    (ReasoningLoop.reasoning_loop Demo.stubborn_oracle Demo.page_tool
       (ReasoningLoop.tool_catalog (fun _ => true) [Demo.firecrawl_scrape; Demo.firecrawl_search])
       3 [SYSTEM_PROMPT; user_message "go"] tt 0)
  = Ok ReasoningLoop.ABORT_FALLBACK /\
  ReasoningLoop.iterations
    (ReasoningLoop.reasoning_loop Demo.stubborn_oracle Demo.page_tool
       (ReasoningLoop.tool_catalog (fun _ => true) [Demo.firecrawl_scrape; Demo.firecrawl_search])
       3 [SYSTEM_PROMPT; user_message "go"] tt 0)
  = 3.
Proof.
  assert (Honly : ReasoningLoop.only_tool_calls Demo.stubborn_oracle
            (ReasoningLoop.tool_catalog (fun _ => true)
               [Demo.firecrawl_scrape; Demo.firecrawl_search])).
  { intros history w. by eexists _, _, _. }
  split; [exact Honly|].
  destruct (proj2 (reasoning_loop_is_bounded Demo.stubborn_oracle Demo.page_tool
                     (ReasoningLoop.tool_catalog (fun _ => true)
                        [Demo.firecrawl_scrape; Demo.firecrawl_search])
                     3 [SYSTEM_PROMPT; user_message "go"] tt) Honly) as (Hr & Hn & _).
  split; [exact Hr | exact Hn].
Defined.


(** ** Whole sessions: what the loop and the run do beyond one turn *)

Section WholeSessions.
Context `{C : Collaborators}.

Lemma is_exit_token_spec user_input :
  (is_exit_token user_input = true <-> user_input ∈ EXIT_TOKENS) /\
  (is_exit_token user_input = false <-> user_input ∉ EXIT_TOKENS).
Proof.
  unfold is_exit_token. split.
  - apply bool_decide_eq_true.
  - apply bool_decide_eq_false.
Qed.

(** The loop on a line that is a turn, and on one that is an exit token, by
    the boolean test. *)
Lemma repl_cons agent user_input rest st :
  repl agent (user_input :: rest) st =
  if is_exit_token user_input then (Ok tt, after_exit user_input st)
  else repl agent rest (after_turn agent user_input st).
Proof.
  destruct (is_exit_token user_input) eqn:Htok.
  - apply repl_exit. by apply is_exit_token_spec.
  - apply repl_turn. by apply is_exit_token_spec.
Qed.

(** X8: whatever follows the first exit token is never read.  With an exit
    token anywhere in the input, the loop ends in the same result and the
    same state whatever lines come after the token. *)
Theorem input_after_exit_is_ignored agent before token rest st :
  token ∈ EXIT_TOKENS ->
  repl agent (before ++ token :: rest) st = repl agent (before ++ [token]) st.
Proof.
  intros Htok. revert st.
  induction before as [|line before IH]; intros st.
  - simpl app. by rewrite !repl_exit.
  - rewrite <- !app_comm_cons, !repl_cons.
    destruct (is_exit_token line); [done | apply IH].
Qed.

(** X6: a line of at most 175,000 characters, the bound included, is stored
    whole: the user message of the turn holds the line itself. *)
Theorem short_input_is_stored_whole agent user_input st :
  user_input ∉ EXIT_TOKENS ->
  Py.len user_input <= INPUT_CAP ->
  messages (loop_body agent (Some user_input) st).2
  = messages st ++ [{| role := user; content := user_input |}].
Proof.
  intros Hin Hlen. rewrite loop_body_turn by done. cbn [snd].
  rewrite after_turn_messages. unfold user_message. by rewrite slice_to_short.
Qed.


Lemma repl_messages agent lines st :
  messages (repl agent lines st).2 = messages st ++ map user_message (turn_lines lines).
Proof.
  revert st. induction lines as [|line rest IH]; intros st.
  - rewrite repl_nil. simpl. by rewrite app_nil_r.
  - rewrite repl_cons. cbn [turn_lines].
    destruct (is_exit_token line).
    + simpl. by rewrite app_nil_r.
    + rewrite IH, after_turn_messages, <- app_assoc. done.
Qed.

Lemma call_histories_app tr1 tr2 :
  call_histories (tr1 ++ tr2) = call_histories tr1 ++ call_histories tr2.
Proof.
  induction tr1 as [|ev tr1 IH]; [done|].
  destruct ev; simpl; by rewrite ?IH.
Qed.

(** X5: the agent is called once per turn, whatever its calls return, and
    the call of turn [k] is made on the history the loop started from
    followed by the user messages of the first [k] turns, in the order the
    lines were read. *)
Theorem calls_follow_the_turns agent lines st :
  exists evs,
    trace (repl agent lines st).2 = trace st ++ evs /\
    call_histories evs =
    map (fun k => messages st ++ map user_message (take (S k) (turn_lines lines)))
        (seq 0 (length (turn_lines lines))).
Proof.
  revert st. induction lines as [|line rest IH]; intros st.
  - rewrite repl_nil. by eexists.
  - rewrite repl_cons. cbn [turn_lines].
    destruct (is_exit_token line); [by eexists|].
    destruct (IH (after_turn agent line st)) as (evs & Htr & Hcalls).
    rewrite Htr, after_turn_trace, <- app_assoc. eexists. split; [done|].
    rewrite call_histories_app, Hcalls, after_turn_messages.
    cbn [length seq map call_histories app]. f_equal.
    rewrite <- List.seq_shift, List.map_map.
    apply List.map_ext. intros k. by rewrite <- app_assoc.
Qed.

(** The five ways a run can go: one of the four calls of the startup
    raises, or the startup goes through and the loop runs between the
    startup and the shutdown.  The result of the run is what the exits of
    the scopes entered make of the outcome of their body. *)
Lemma run_cases lines w :
  (exists e, (run lines w).1 = Raise e /\ messages (run lines w).2 = [] /\
     trace (run lines w).2 = [EvEnter (Transport server_params) (Raise e)]) \/
  (exists e, (exits_keep_exceptions -> raised (run lines w).1) /\
     messages (run lines w).2 = [] /\
     trace (run lines w).2 =
       [EvEnter (Transport server_params) (Ok tt); EvEnter Session (Raise e);
        EvExit (Transport server_params)]) \/
  (exists e, (exits_keep_exceptions -> raised (run lines w).1) /\
     messages (run lines w).2 = [] /\
     trace (run lines w).2 =
       [EvEnter (Transport server_params) (Ok tt); EvEnter Session (Ok tt);
        EvInitialize (Raise e);
        EvExit Session; EvExit (Transport server_params)]) \/
  (exists e, (exits_keep_exceptions -> raised (run lines w).1) /\
     messages (run lines w).2 = [] /\
     trace (run lines w).2 =
       [EvEnter (Transport server_params) (Ok tt); EvEnter Session (Ok tt);
        EvInitialize (Ok tt); EvLoadTools (Raise e);
        EvExit Session; EvExit (Transport server_params)]) \/
  (exists tools st0,
     messages st0 = [SYSTEM_PROMPT] /\
     trace st0 = startup_events tools /\
     (exits_keep_exceptions -> exits_return_normally ->
      ((run lines w).1 = Ok tt <->
       (repl (create_react_agent model tools) lines st0).1 = Ok tt)) /\
     messages (run lines w).2
       = messages (repl (create_react_agent model tools) lines st0).2 /\
     trace (run lines w).2
       = trace (repl (create_react_agent model tools) lines st0).2 ++ shutdown_events).
Proof.
  assert (Hkeep : forall s e w' r w'',
            exits_keep_exceptions -> scope_exit s (Raise e) w' = (r, w'') -> raised r).
  { intros s e w' r w'' Hk Hex. specialize (Hk s e w'). by rewrite Hex in Hk. }
  assert (Hnorm : forall s w' r w'',
            exits_return_normally -> scope_exit s (Ok tt) w' = (r, w'') -> r = Ok tt).
  { intros s w' r w'' Hn Hex. specialize (Hn s w'). by rewrite Hex in Hn. }
  unfold run, main, async_with, bind, external, initial; simpl.
  destruct (scope_enter (Transport server_params) w) as [[[]|e1] w1]; simpl;
    [|left; by exists e1].
  destruct (scope_enter Session w1) as [[[]|e2] w2]; simpl.
  2:{ leave_scopes. right; left. exists e2. repeat split. intros Hk. eauto. }
  destruct (session_initialize w2) as [[[]|e3] w3]; simpl.
  2:{ leave_scopes. do 2 right; left. exists e3. repeat split. intros Hk.
      repeat match goal with
             | H : scope_exit _ (Raise _) _ = (?r, _) |- _ =>
                 apply (Hkeep _ _ _ _ _ Hk) in H; destruct r; [done|]
             end. done. }
  destruct (load_mcp_tools w3) as [[tools|e4] w4]; simpl.
  2:{ leave_scopes. do 3 right; left. exists e4. repeat split. intros Hk.
      repeat match goal with
             | H : scope_exit _ (Raise _) _ = (?r, _) |- _ =>
                 apply (Hkeep _ _ _ _ _ Hk) in H; destruct r; [done|]
             end. done. }
  do 4 right.
  match goal with |- context [repl ?a lines ?st] => exists tools, st end.
  match goal with |- context [repl ?a lines ?st] =>
    destruct (repl a lines st) as [[[]|e] st'] end; simpl; leave_scopes.
  all: repeat split; try (unfold shutdown_events; by rewrite <- !app_assoc);
       try discriminate.
  - intros _. apply (Hnorm _ _ _ _ H0) in Hexit. subst.
    by apply (Hnorm _ _ _ _ H0) in Hexit0.
  - intros ->. exfalso.
    apply (Hkeep _ _ _ _ _ H) in Hexit. destruct r; [done|].
    by apply (Hkeep _ _ _ _ _ H) in Hexit0.
Qed.

Lemma entered_app tr1 tr2 : entered (tr1 ++ tr2) = entered tr1 ++ entered tr2.
Proof.
  induction tr1 as [|ev tr1 IH]; [done|].
  destruct ev as [s [[]|e]| | | | | | |]; simpl; by rewrite ?IH.
Qed.

Lemma exited_app tr1 tr2 : exited (tr1 ++ tr2) = exited tr1 ++ exited tr2.
Proof.
  induction tr1 as [|ev tr1 IH]; [done|].
  destruct ev; simpl; by rewrite ?IH.
Qed.

Lemma loop_events_scopes agent h0 evs :
  Forall (loop_event agent h0) evs -> entered evs = [] /\ exited evs = [].
Proof.
  induction 1 as [|ev evs Hev _ [IH1 IH2]]; [done|].
  by destruct ev.
Qed.

(** X1: every scope that [main] enters is left again, the inner one first,
    on every way out of a run: a failed startup, the exit token, the end of
    input.  A scope whose entry raised is not left. *)
Theorem scopes_are_released lines w :
  exited (trace (run lines w).2) = reverse (entered (trace (run lines w).2)).
Proof.
  destruct (run_cases lines w)
    as [(e & _ & _ & ->)|[(e & _ & _ & ->)|[(e & _ & _ & ->)|[(e & _ & _ & ->)
       |(tools & st0 & _ & Htr0 & _ & _ & ->)]]]]; try done.
  destruct (repl_spec (create_react_agent model tools) lines st0)
    as (_ & evs & _ & _ & -> & Hevs).
  destruct (loop_events_scopes _ _ _ Hevs) as [Hin Hout].
  rewrite Htr0, !entered_app, !exited_app, Hin, Hout. done.
Qed.

(** X2: when a call of the startup raises (entering a scope, the
    handshake, the tool discovery), nothing is printed, no line is read,
    the agent is not called and the history is still empty.  The exception
    reaches the caller of [main] through the exits of the scopes already
    entered: a failure to enter the transport, with no scope to leave, is
    the result of the run as it is, and in every case the run raises as
    long as no exit swallows an exception. *)
Theorem startup_failure_surfaces lines w e ev :
  ev ∈ trace (run lines w).2 -> startup_error e ev ->
  messages (run lines w).2 = [] /\
  Forall startup_failure_event (trace (run lines w).2) /\
  (ev = EvEnter (Transport server_params) (Raise e) -> (run lines w).1 = Raise e) /\
  (exits_keep_exceptions -> raised (run lines w).1).
Proof.
  intros Hin Herr.
  destruct (run_cases lines w)
    as [(e' & Hr & Hm & Htr)|[(e' & Hr & Hm & Htr)|[(e' & Hr & Hm & Htr)
       |[(e' & Hr & Hm & Htr)|(tools & st0 & _ & Htr0 & _ & _ & Htr)]]]].
  - rewrite Htr in Hin |- *. rewrite Hr, Hm.
    split; [done|]. split; [by repeat constructor|]. split; [|done].
    intros ->. apply list_elem_of_singleton in Hin. congruence.
  - rewrite Htr in Hin |- *. rewrite Hm.
    split; [done|]. split; [by repeat constructor|]. split; [|done].
    intros ->. list_out Hin.
  - rewrite Htr in Hin |- *. rewrite Hm.
    split; [done|]. split; [by repeat constructor|]. split; [|done].
    intros ->. list_out Hin.
  - rewrite Htr in Hin |- *. rewrite Hm.
    split; [done|]. split; [by repeat constructor|]. split; [|done].
    intros ->. list_out Hin.
  - exfalso. rewrite Htr in Hin.
    destruct (repl_spec (create_react_agent model tools) lines st0)
      as (_ & evs & _ & _ & Hevs & Hloop).
    rewrite Hevs, Htr0 in Hin. rewrite Forall_forall in Hloop.
    rewrite !elem_of_app in Hin. destruct Hin as [[Hin|Hin]|Hin].
    + unfold startup_events in Hin.
      destruct Herr as [[s ->]|[->| ->]]; list_out Hin.
    + apply Hloop in Hin. by destruct Herr as [[s ->]|[->| ->]].
    + unfold shutdown_events in Hin.
      destruct Herr as [[s ->]|[->| ->]]; list_out Hin.
Qed.



(** X4: the history is the record of the turns.  After the loop it is the
    history before it followed by one user message per line read before
    the first exit token, in the order read, each cut at the cap; after a
    run whose discovery returned it is the system prompt followed by those
    messages, and empty otherwise. *)
Theorem history_is_the_capped_inputs lines w :
  (forall agent st,
     messages (repl agent lines st).2
     = messages st ++ map user_message (turn_lines lines)) /\
  messages (run lines w).2 =
    match discoveries (trace (run lines w).2) with
    | [Ok _] => SYSTEM_PROMPT :: map user_message (turn_lines lines)
    | _ => []
    end.
Proof.
  split; [intros agent st; apply repl_messages|].
  destruct (run_cases lines w)
    as [(e & _ & -> & ->)|[(e & _ & -> & ->)|[(e & _ & -> & ->)|[(e & _ & -> & ->)
       |(tools & st0 & Hm0 & Htr0 & _ & -> & ->)]]]]; try done.
  destruct (repl_spec (create_react_agent model tools) lines st0)
    as (_ & evs & _ & _ & -> & Hevs).
  rewrite <- app_assoc, Htr0, discoveries_app.
  rewrite (discoveries_quiet _ (loop_part_quiet _ _ _ Hevs)).
  by rewrite repl_messages, Hm0.
Qed.

Lemma system_prompt_within_cap : Py.len (content SYSTEM_PROMPT) <= INPUT_CAP.
Proof. unfold INPUT_CAP. apply Nat.leb_le. reflexivity. Qed.

(** X7: no message of the history is longer than the cap: after any run,
    every message the driver holds has at most 175,000 characters. *)
Theorem history_within_cap lines w :
  Forall (fun m => Py.len (content m) <= INPUT_CAP) (messages (run lines w).2).
Proof.
  destruct (run_cases lines w)
    as [(e & _ & -> & _)|[(e & _ & -> & _)|[(e & _ & -> & _)|[(e & _ & -> & _)
       |(tools & st0 & Hm0 & _ & _ & -> & _)]]]]; try by constructor.
  rewrite repl_messages, Hm0. constructor; [apply system_prompt_within_cap|].
  induction (turn_lines lines) as [|line rest IH]; constructor; [|done].
  cbn [user_message content]. rewrite len_slice_to. lia.
Qed.

End WholeSessions.

(** ** The terminal line *)

Section TerminalLine.

Lemma last_line_after_line_feed (before after acc : string) :
  Py.last_line_acc acc (before +:+ String "010"%char after) = Py.last_line after.
Proof.
  revert acc. induction before as [|c before IH]; intros acc; [done|].
  change (String c before +:+ String "010"%char after)
    with (String c (before +:+ String "010"%char after)).
  cbn [Py.last_line_acc]. destruct (Ascii.eqb c "010"%char); apply IH.
Qed.

(** X9: every [print] ends its line and the prompt starts a new one: after
    a [print] the current terminal line is empty, and once the prompt is
    written the current line reads exactly [You: ], whatever was on the
    terminal before. *)
Theorem prompt_on_its_own_line (before : string) (args : list string) :
  Py.last_line (before +:+ Py.print_text args) = EmptyString /\
  Py.last_line (before +:+ PROMPT) = "You: ".
Proof.
  split.
  - unfold Py.print_text, Py.LF. rewrite <- str_app_assoc.
    apply (last_line_after_line_feed _ EmptyString).
  - apply (last_line_after_line_feed before "You: ").
Qed.

End TerminalLine.

(** ** Whole sessions on concrete runs *)

(** X2 on a server that does not answer the handshake: the error leaves
    the run inside the exception groups of the two scopes. *)
Lemma startup_failure_surfaces_witness :
  EvInitialize (Raise Outage.handshake_error)
    ∈ trace (run (C := Outage.collaborators) ["hello"] tt).2 /\
  startup_error Outage.handshake_error (EvInitialize (Raise Outage.handshake_error)) /\
  exits_keep_exceptions (C := Outage.collaborators) /\
  messages (run (C := Outage.collaborators) ["hello"] tt).2 = [] /\
  raised (run (C := Outage.collaborators) ["hello"] tt).1 /\
  (run (C := Outage.collaborators) ["hello"] tt).1
  = Raise (Demo.ExceptionGroup (Demo.ExceptionGroup Outage.handshake_error)).
Proof.
  assert (Hin : EvInitialize (Raise Outage.handshake_error)
                  ∈ trace (run (C := Outage.collaborators) ["hello"] tt).2).
  { change (trace (run (C := Outage.collaborators) ["hello"] tt).2)
      with [EvEnter (Transport (server_params (C := Outage.collaborators))) (Ok tt);
            EvEnter Session (Ok tt);
            EvInitialize (Raise Outage.handshake_error);
            EvExit Session;
            EvExit (Transport (server_params (C := Outage.collaborators)))].
    list_in. }
  assert (Herr : startup_error Outage.handshake_error
                   (EvInitialize (Raise Outage.handshake_error))).
  { right. by left. }
  assert (Hkeep : exits_keep_exceptions (C := Outage.collaborators)).
  { intros s e w. exact I. }
  split; [exact Hin|]. split; [exact Herr|]. split; [exact Hkeep|].
  destruct (startup_failure_surfaces (C := Outage.collaborators) ["hello"] tt _ _ Hin Herr)
    as (Hm & _ & _ & Hr).
  split; [exact Hm|]. split; [exact (Hr Hkeep) | reflexivity].
Defined.


(** A started run whose lines run out: [EOFError] leaves the run inside the
    exception groups of the two scopes. *)
Example end_of_input_leaves_in_groups :
  (run (C := Demo.scripted) ["2+2?"] 0).1
  = Raise (Demo.ExceptionGroup (Demo.ExceptionGroup EOFError)).
Proof. reflexivity. Qed.

(** X6 on the line ["hello"]. *)
Lemma short_input_is_stored_whole_witness :
  ("hello" ∉ EXIT_TOKENS) /\
  Py.len "hello" <= INPUT_CAP /\
  messages (loop_body Demo.agent (Some "hello") (Demo.started 0)).2
  = messages (Demo.started 0) ++ [{| role := user; content := "hello" |}].
Proof.
  assert (Hq : "hello" ∉ EXIT_TOKENS) by not_exit_token.
  assert (Hlen : Py.len "hello" <= INPUT_CAP) by exact INPUT_CAP_large.
  split; [exact Hq|]. split; [exact Hlen|].
  exact (short_input_is_stored_whole Demo.agent "hello" (Demo.started 0) Hq Hlen).
Defined.

(** X8 on a session with a line behind the exit token. *)
Lemma input_after_exit_is_ignored_witness :
  ("q" ∈ EXIT_TOKENS) /\
  repl Demo.agent (["2+2?"] ++ "q" :: ["never read"]) (Demo.started 0)
  = repl Demo.agent (["2+2?"] ++ ["q"]) (Demo.started 0).
Proof.
  assert (Hq : "q" ∈ EXIT_TOKENS) by (apply exit_token_iff; by right).
  split; [exact Hq|].
  exact (input_after_exit_is_ignored Demo.agent ["2+2?"] "q" ["never read"]
           (Demo.started 0) Hq).
Defined.
